(** * Embeddings server ([src/app/main.py]): backend selection and request handlers

    The module under verification is a single Python file.  On import it reads
    [MODEL_ID] from the environment, selects an embedding backend inside a
    [try]/[except Exception] block and then registers two handlers, [health]
    and [embed].

    The embedding libraries are black boxes.  They are gathered in the record
    [Collaborators]: every call into them takes the state of the outside world
    and returns an outcome together with the new world, so nothing is assumed
    about what they compute, whether they fail, or whether two calls agree.
    The web framework (routing, request parsing, turning an uncaught exception
    into a 5xx answer) is not modelled: a handler is a computation that either
    returns a value or raises. *)

From Stdlib Require Import String List Bool Arith Lia.
From Stdlib Require Import PrimFloat.
Import ListNotations.
Local Open Scope string_scope.

Set Implicit Arguments.

(** ** Python exceptions *)

(** The classes that matter are those the handler [except Exception] tells
    apart: everything deriving from [Exception] on one side, the exceptions
    deriving from [BaseException] only on the other. *)
Inductive exn : Type :=
| ImportError
| ModuleNotFoundError
| AttributeError
| NameError
| TypeError
| ValueError
| RuntimeError
| MemoryError
| OSError
| LibraryError (name : string)   (* a class defined by a library, deriving from Exception *)
| KeyboardInterrupt
| SystemExit
| GeneratorExit.

(** [isinstance(e, Exception)] *)
Definition isinstance_Exception (e : exn) : bool :=
  match e with
  | KeyboardInterrupt | SystemExit | GeneratorExit => false
  | _ => true
  end.

(** Outcome of evaluating a Python expression or statement. *)
Inductive result (A : Type) : Type :=
| Ok (a : A)
| Raise (e : exn).
Arguments Ok {A} a.
Arguments Raise {A} e.

Definition result_bind {A B} (r : result A) (k : A -> result B) : result B :=
  match r with
  | Ok a => k a
  | Raise e => Raise e
  end.

(** ** Python values returned by the handlers *)

#[warnings="-register-all"]
Inductive value : Type :=
| VStr (s : string)
| VFloat (x : float)                     (* builtin float: IEEE binary64 *)
| VList (xs : list value)
| VDict (items : list (string * value)). (* dict literal, in insertion order *)

(** ** Iterators *)

(** What consuming a lazy sequence produces: finitely many items, ended by
    exhaustion or by an exception raised while computing the next item. *)
Inductive gen (A : Type) : Type :=
| GStop
| GYield (a : A) (rest : gen A)
| GRaise (e : exn).
Arguments GStop {A}.
Arguments GYield {A} a rest.
Arguments GRaise {A} e.

(** [list(it)]: all the items in order, or the exception that interrupted the
    iteration; the items produced before the exception are dropped. *)
Fixpoint list_ {A} (g : gen A) : result (list A) :=
  match g with
  | GStop => Ok []
  | GYield a rest => result_bind (list_ rest) (fun l => Ok (a :: l))
  | GRaise e => Raise e
  end.

(** [[f(x) for x in xs]] / [list(map(f, xs))] for an [f] that may raise:
    left to right, the first exception ends the evaluation. *)
Fixpoint map_ {A B} (f : A -> result B) (xs : list A) : result (list B) :=
  match xs with
  | [] => Ok []
  | x :: xs' =>
      result_bind (f x) (fun y =>
      result_bind (map_ f xs') (fun ys => Ok (y :: ys)))
  end.

(** ** External collaborators *)

Inductive library : Type := Fastembed | SentenceTransformers.

(** One entry per call the module makes into the embedding libraries, in
    chronological order (ghost state, used to say which calls were made, with
    which arguments and how many times). *)
Inductive call : Type :=
| Import_ (lib : library)
| Construct (lib : library) (model_id : string)
| CallEmbed (inputs : list string)
| CallEncode (inputs : list string) (normalize_embeddings : bool).

Record Collaborators : Type := {
  world : Type;
  (* fastembed *)
  fe_model : Type;
  scalar : Type;                          (* element type of the yielded vectors *)
  import_fastembed : world -> result unit * world;
  TextEmbedding : string -> world -> result fe_model * world;
  fe_embed : fe_model -> list string -> world -> gen (list scalar) * world;
  float_ : scalar -> result float;        (* builtin float() on an element *)
  (* sentence_transformers *)
  st_model : Type;
  ndarray : Type;
  import_sentence_transformers : world -> result unit * world;
  SentenceTransformer : string -> world -> result st_model * world;
  st_encode : st_model -> list string -> bool -> world -> result ndarray * world;
  tolist : ndarray -> list (list float)
}.

(** ** The module's state and its computations *)

Section Service.

Variable C : Collaborators.

(** The object bound to the global [embedder]: an instance of one of the two
    model classes. *)
Inductive model_obj : Type :=
| FE (m : fe_model C)
| ST (m : st_model C).

(** The three module-level names the handlers read; [None] is an unbound
    name. *)
Record globals : Type := {
  MODEL_ID : option string;
  _backend : option string;
  embedder : option model_obj
}.

Record state : Type := {
  glob : globals;
  wld : world C;
  calls : list call
}.

(** State-and-exception monad: a statement runs from a state and either
    completes or raises; what it did to the state before raising stays. *)
Definition M (A : Type) : Type := state -> result A * state.

Definition ret {A} (a : A) : M A := fun s => (Ok a, s).

Definition raise {A} (e : exn) : M A := fun s => (Raise e, s).

Definition bind {A B} (c : M A) (k : A -> M B) : M B :=
  fun s =>
    match c s with
    | (Ok a, s') => k a s'
    | (Raise e, s') => (Raise e, s')
    end.

Notation "x <- c ;; k" := (bind c (fun x => k))
  (at level 61, c at next level, right associativity).
Notation "c ;; k" := (bind c (fun _ => k))
  (at level 61, right associativity).

Definition lift {A} (r : result A) : M A := fun s => (r, s).

(** Reading a global name; an unbound one raises [NameError]. *)
Definition load {A} (name : globals -> option A) : M A :=
  fun s =>
    match name (glob s) with
    | Some v => (Ok v, s)
    | None => (Raise NameError, s)
    end.

Definition with_glob (g : globals) (s : state) : state :=
  {| glob := g; wld := wld s; calls := calls s |}.

Definition store_MODEL_ID (v : string) : M unit :=
  fun s => (Ok tt, with_glob {| MODEL_ID := Some v;
                                _backend := _backend (glob s);
                                embedder := embedder (glob s) |} s).

Definition store__backend (v : string) : M unit :=
  fun s => (Ok tt, with_glob {| MODEL_ID := MODEL_ID (glob s);
                                _backend := Some v;
                                embedder := embedder (glob s) |} s).

Definition store_embedder (v : model_obj) : M unit :=
  fun s => (Ok tt, with_glob {| MODEL_ID := MODEL_ID (glob s);
                                _backend := _backend (glob s);
                                embedder := Some v |} s).

(** A call into a library: recorded, then run on the outside world. *)
Definition extern {A} (c : call) (f : world C -> result A * world C) : M A :=
  fun s =>
    let (r, w) := f (wld s) in
    (r, {| glob := glob s; wld := w; calls := calls s ++ [c] |}).

(** [try: body  except Exception as e: handler]: only instances of
    [Exception] reach the handler. *)
Definition try_except_Exception {A} (body : M A) (handler : exn -> M A) : M A :=
  fun s =>
    match body s with
    | (Ok a, s') => (Ok a, s')
    | (Raise e, s') =>
        if isinstance_Exception e then handler e s' else (Raise e, s')
    end.

(** ** Module body *)

(** [os.getenv(key, default)] *)
Definition getenv (environ : string -> option string) (key default : string) : string :=
  match environ key with
  | Some v => v
  | None => default
  end.

(** Before the import of the module nothing is bound and no call was made. *)
Definition boot (w : world C) : state :=
  {| glob := {| MODEL_ID := None; _backend := None; embedder := None |};
     wld := w;
     calls := [] |}.

(** Lines 6-17: the configuration and the backend selection. *)
Definition startup (environ : string -> option string) : M unit :=
  store_MODEL_ID (getenv environ "MODEL_ID" "BAAI/bge-small-en-v1.5") ;;
  try_except_Exception
    (extern (Import_ Fastembed) (import_fastembed C) ;;
     store__backend "fastembed" ;;
     model_name <- load MODEL_ID ;;
     m <- extern (Construct Fastembed model_name) (TextEmbedding C model_name) ;;
     store_embedder (FE m))
    (fun e =>
     extern (Import_ SentenceTransformers) (import_sentence_transformers C) ;;
     store__backend "sentence-transformers" ;;
     model_name <- load MODEL_ID ;;
     m <- extern (Construct SentenceTransformers model_name)
                 (SentenceTransformer C model_name) ;;
     store_embedder (ST m)).

Record EmbedRequest : Type := { inputs : list string }.

(** [o.embed(xs)]: only the fastembed class has the method.  The generator is
    consumed at once by [list], so the world returned is the one left when
    the iteration has ended. *)
Definition method_embed (o : model_obj) (xs : list string) : M (gen (list (scalar C))) :=
  match o with
  | FE m => extern (CallEmbed xs)
                   (fun w => let (g, w') := fe_embed C m xs w in (Ok g, w'))
  | ST _ => raise AttributeError
  end.

(** [o.encode(xs, normalize_embeddings=flag)]: only the sentence-transformers
    class has the method. *)
Definition method_encode (o : model_obj) (xs : list string) (flag : bool) : M (ndarray C) :=
  match o with
  | ST m => extern (CallEncode xs flag) (st_encode C m xs flag)
  | FE _ => raise AttributeError
  end.

(** A list of lists of floats as a Python value. *)
Definition rows_value (rows : list (list float)) : value :=
  VList (map (fun r => VList (map VFloat r)) rows).

(** Lines 22-24. *)
Definition health : M value :=
  model <- load MODEL_ID ;;
  ret (VDict [("status", VStr "ok"); ("model", VStr model)]).

(** Lines 26-34. *)
Definition embed (req : EmbedRequest) : M value :=
  b <- load _backend ;;
  if (b =? "fastembed")%string then
    o <- load embedder ;;
    it <- method_embed o (inputs req) ;;
    embs <- lift (list_ it) ;;
    rows <- lift (map_ (fun e => map_ (float_ C) e) embs) ;;
    ret (VDict [("embeddings", rows_value rows)])
  else
    o <- load embedder ;;
    arr <- method_encode o (inputs req) true ;;
    let embs := tolist C arr in
    ret (VDict [("embeddings", rows_value embs)]).

(** ** Serving requests *)

(** The two routes registered by the decorators.  The handlers contain no
    [await], so each request runs to completion before the next starts. *)
Inductive request : Type :=
| GET_health
| POST_embed (req : EmbedRequest).

Definition handle (r : request) : M value :=
  match r with
  | GET_health => health
  | POST_embed req => embed req
  end.

(** Requests handled one after the other; an exception ends its own request
    only. *)
Fixpoint serve (rs : list request) (s : state) : list (result value) * state :=
  match rs with
  | [] => ([], s)
  | r :: rs' =>
      let (out, s1) := handle r s in
      let (outs, s2) := serve rs' s1 in
      (out :: outs, s2)
  end.

(** ** Notions used to state the properties *)

(** The two states in which the module can be once imported (B-primary and
    B-fallback): the three globals are bound, and the backend name agrees
    with the class of the model object. *)
Definition selected (g : globals) : bool :=
  match MODEL_ID g, _backend g, embedder g with
  | Some _, Some b, Some (FE _) => (b =? "fastembed")%string
  | Some _, Some b, Some (ST _) => (b =? "sentence-transformers")%string
  | _, _, _ => false
  end.

(** [isinstance(e, ImportError)]; a missing module raises the subclass
    [ModuleNotFoundError]. *)
Definition isinstance_ImportError (e : exn) : bool :=
  match e with
  | ImportError | ModuleNotFoundError => true
  | _ => false
  end.

(** A recorded call is a model call made on the backend named [b]. *)
Definition dispatched_on (b : option string) (c : call) : Prop :=
  match c with
  | CallEmbed _ => b = Some "fastembed"
  | CallEncode _ flag => b = Some "sentence-transformers" /\ flag = true
  | Import_ _ | Construct _ _ => False
  end.

(** The model call that [embed] makes for the inputs [xs] in world [w] raises
    [e]: the iteration over fastembed's result is interrupted by [e] (at the
    first item or later), or [encode] raises [e]. *)
Definition model_call_raises (g : globals) (xs : list string) (w : world C) (e : exn) : Prop :=
  match embedder g with
  | Some (FE m) => list_ (fst (fe_embed C m xs w)) = Raise e
  | Some (ST m) => fst (st_encode C m xs true w) = Raise e
  | None => False
  end.

(** The contract of the libraries for one call, [R x v] reading "[v] is the
    vector of floats the model assigns to the text [x]": the call succeeds
    and gives one vector per input, in the order of the inputs (for
    fastembed, vectors whose elements [float] accepts). *)
Definition one_vector_per_input (R : string -> list float -> Prop)
    (g : globals) (xs : list string) (w : world C) : Prop :=
  match embedder g with
  | Some (FE m) =>
      exists embs, list_ (fst (fe_embed C m xs w)) = Ok embs /\
        Forall2 (fun x e => exists v, map_ (float_ C) e = Ok v /\ R x v) xs embs
  | Some (ST m) =>
      exists arr, fst (st_encode C m xs true w) = Ok arr /\
        Forall2 R xs (tolist C arr)
  | None => False
  end.

(** [v] is the builtin float obtained from the backend's element [x]. *)
Definition coerced (x : scalar C) (v : value) : Prop :=
  exists f, float_ C x = Ok f /\ v = VFloat f.

End Service.

(** ** A concrete pair of libraries

    A small executable instance of [Collaborators], used to run the module on
    concrete inputs.  Its world says which imports and constructions fail and
    counts the model calls served. *)

Module Demo.

Record scenario : Type := {
  fastembed_import : option exn;     (* [Some e]: importing fastembed raises e *)
  fastembed_load : option exn;       (* [Some e]: TextEmbedding(...) raises e *)
  st_import : option exn;
  st_load : option exn;
  served : nat
}.

Definition tick (w : scenario)  : scenario :=
  {| fastembed_import := fastembed_import w;
     fastembed_load := fastembed_load w;
     st_import := st_import w;
     st_load := st_load w;
     served := S (served w) |}.

Definition attempt {A} (failure : option exn) (a : A) (w : scenario) : result A * scenario :=
  match failure with
  | Some e => (Raise e, w)
  | None => (Ok a, w)
  end.

(** Elements yielded by the primary backend: single precision numbers, or an
    object [float] rejects. *)
Inductive element : Type :=
| F32 (x : float)
| Opaque.

Definition to_float (x : element) : result float :=
  match x with
  | F32 f => Ok f
  | Opaque => Raise TypeError
  end.

Definition vec (x : string) : list float :=
  if (x =? "a")%string then [1%float; 0%float]
  else if (x =? "b")%string then [0%float; 1%float]
  else [0%float; (-1)%float].

(** The empty text is rejected; the text "opaque" gets a vector [float]
    cannot convert. *)
Fixpoint embed_iter (xs : list string) : gen (list element) :=
  match xs with
  | [] => GStop
  | x :: xs' =>
      if (x =? "")%string then GRaise ValueError
      else if (x =? "opaque")%string then GYield [Opaque] (embed_iter xs')
      else GYield (map F32 (vec x)) (embed_iter xs')
  end.

Definition encode (xs : list string) (normalize : bool) (w : scenario) :
    result (list (list float)) * scenario :=
  if existsb (String.eqb "") xs then (Raise ValueError, tick w)
  else if normalize then (Ok (map vec xs), tick w)
  else (Ok (map (fun x => map (PrimFloat.mul 2%float) (vec x)) xs), tick w).

Definition libs : Collaborators :=
  {| world := scenario;
     fe_model := string;
     scalar := element;
     import_fastembed := fun w => attempt (fastembed_import w) tt w;
     TextEmbedding := fun model_name w => attempt (fastembed_load w) model_name w;
     fe_embed := fun _ xs w => (embed_iter xs, tick w);
     float_ := to_float;
     st_model := string;
     ndarray := list (list float);
     import_sentence_transformers := fun w => attempt (st_import w) tt w;
     SentenceTransformer := fun model_name w => attempt (st_load w) model_name w;
     st_encode := fun _ xs flag w => encode xs flag w;
     tolist := fun arr => arr |}.

(** Everything installed and loadable. *)
Definition healthy  : scenario :=
  {| fastembed_import := None; fastembed_load := None;
     st_import := None; st_load := None; served := 0 |}.

(** fastembed is not installed. *)
Definition no_fastembed  : scenario :=
  {| fastembed_import := Some ImportError; fastembed_load := None;
     st_import := None; st_load := None; served := 0 |}.

(** fastembed does not know the model. *)
Definition unknown_to_fastembed  : scenario :=
  {| fastembed_import := None; fastembed_load := Some ValueError;
     st_import := None; st_load := None; served := 0 |}.

(** The operator interrupts the load of the primary model. *)
Definition interrupted  : scenario :=
  {| fastembed_import := None; fastembed_load := Some KeyboardInterrupt;
     st_import := None; st_load := None; served := 0 |}.

(** Neither library can load the model. *)
Definition hopeless  : scenario :=
  {| fastembed_import := None; fastembed_load := Some ValueError;
     st_import := None; st_load := Some OSError; served := 0 |}.

(** Squared Euclidean norm equal to one. *)
Definition unit_length (v : list float) : Prop :=
  PrimFloat.eqb
    (fold_right (fun x acc => PrimFloat.add (PrimFloat.mul x x) acc) 0%float v)
    1%float = true.

Definition unset : string -> option string := fun _ => None.

(** The module imported with fastembed selected, and with the fallback
    selected. *)
Definition primary_ready : state libs :=
  snd (startup unset (boot libs healthy)).

Definition fallback_ready : state libs :=
  snd (startup unset (boot libs no_fastembed)).

Definition with_model (model_id : string) : string -> option string :=
  fun key => if (key =? "MODEL_ID")%string then Some model_id else None.

End Demo.

(** ** Further notions: response shape, conversion errors, expected calls *)




Section FurtherNotions.

Variable C : Collaborators.

(** On the fastembed path the iteration ended normally and a [float]
    conversion raised [e] (the first one to fail, vector by vector and
    element by element). *)
Definition coercion_raises (g : globals C) (xs : list string) (w : world C)
    (e : exn) : Prop :=
  match embedder g with
  | Some (FE _ m) =>
      exists embs, list_ (fst (fe_embed C m xs w)) = Ok embs /\
                   map_ (fun v => map_ (float_ C) v) embs = Raise e
  | _ => False
  end.

(** The library calls a sequence of requests is expected to make when the
    backend named [b] is selected: one model call per [embed] request, on
    that request's whole input sequence, none for [health]. *)
Definition model_calls (b : option string) (rs : list request) : list call :=
  flat_map (fun r =>
              match r, b with
              | POST_embed req, Some name =>
                  if (name =? "fastembed")%string
                  then [CallEmbed (inputs req)]
                  else [CallEncode (inputs req) true]
              | _, _ => []
              end) rs.


End FurtherNotions.

(** * Properties *)

Section Properties.

Variable C : Collaborators.

(** ** Auxiliary facts *)

Lemma map__Forall2 {A B} (f : A -> result B) (xs : list A) :
  forall ys, map_ f xs = Ok ys -> Forall2 (fun x y => f x = Ok y) xs ys.
Proof.
  induction xs as [|x xs IH]; simpl; intros ys H.
  - injection H as <-. constructor.
  - destruct (f x) as [y|e] eqn:Hx; simpl in H; [|discriminate].
    destruct (map_ f xs) as [ys'|e] eqn:Hxs; simpl in H; [|discriminate].
    injection H as <-. constructor; auto.
Qed.

Lemma selected_inv (g : globals C) :
  selected g = true ->
  (exists model_id m,
      g = {| MODEL_ID := Some model_id; _backend := Some "fastembed";
             embedder := Some (FE C m) |}) \/
  (exists model_id m,
      g = {| MODEL_ID := Some model_id; _backend := Some "sentence-transformers";
             embedder := Some (ST C m) |}).
Proof.
  destruct g as [[id|] [b|] [[m|m]|]]; unfold selected; simpl; try discriminate;
    intros H; apply String.eqb_eq in H; subst b; [left|right]; eauto.
Qed.

(** Running a handler: unfold the monad and split on every outcome. *)
Ltac unfold_monad :=
  unfold health, embed, method_embed, method_encode, startup,
    try_except_Exception, bind, ret, raise, lift, load, extern,
    store_MODEL_ID, store__backend, store_embedder, with_glob, boot in *.

Ltac split_outcomes :=
  repeat (match goal with
          | |- context [match ?x with _ => _ end] =>
              lazymatch x with
              | context [match _ with _ => _ end] => fail
              | _ => destruct x eqn:?
              end
          end; simpl).

Lemma health_bound (s : state C) (model_id : string) :
  MODEL_ID (glob s) = Some model_id ->
  health s = (Ok (VDict [("status", VStr "ok"); ("model", VStr model_id)]), s).
Proof. intros H. unfold_monad. rewrite H. reflexivity. Qed.

Lemma handle_glob (r : request) (s : state C) :
  glob (snd (handle r s)) = glob s.
Proof.
  destruct r as [|req]; simpl; unfold_monad; split_outcomes; reflexivity.
Qed.

Lemma serve_glob (rs : list request) :
  forall s : state C, glob (snd (serve rs s)) = glob s.
Proof.
  induction rs as [|r rs IH]; intros s; simpl; [reflexivity|].
  destruct (handle r s) as [out s1] eqn:Hr.
  specialize (IH s1). destruct (serve rs s1) as [outs s2]; simpl in *.
  rewrite IH. change s1 with (snd (out, s1)). rewrite <- Hr. apply handle_glob.
Qed.

(** ** Startup *)

Lemma startup_MODEL_ID environ (w : world C) :
  MODEL_ID (glob (snd (startup environ (boot C w)))) =
  Some (getenv environ "MODEL_ID" "BAAI/bge-small-en-v1.5").
Proof. unfold_monad; simpl. split_outcomes; reflexivity. Qed.

Lemma startup_selected environ (w : world C) (s : state C) :
  startup environ (boot C w) = (Ok tt, s) ->
  selected (glob s) = true.
Proof.
  unfold_monad; simpl. split_outcomes; intros H; inversion H; reflexivity.
Qed.

Lemma startup_constructs environ (w : world C) lib model_id :
  In (Construct lib model_id) (calls (snd (startup environ (boot C w)))) ->
  model_id = getenv environ "MODEL_ID" "BAAI/bge-small-en-v1.5".
Proof.
  unfold_monad; simpl. split_outcomes; simpl; intros H;
    repeat (destruct H as [H|H]; [inversion H; reflexivity|]); contradiction.
Qed.

(** C1 (as amended).  With fastembed importable, startup first calls the
    fastembed constructor with the configured model identifier.  If it
    returns, fastembed is selected.  If it raises an instance of [Exception],
    sentence-transformers is imported and its constructor called once with
    the same identifier: success selects it, and a failure of that import or
    construction is the outcome of startup, nothing else being tried.  If it
    raises anything else ([KeyboardInterrupt], [SystemExit], [GeneratorExit])
    startup fails with it and the secondary backend is not tried. *)
Theorem startup_fallback_on_Exception environ (w w1 : world C) :
  let model_id := getenv environ "MODEL_ID" "BAAI/bge-small-en-v1.5" in
  let at_state b o w' cs :=
    {| glob := {| MODEL_ID := Some model_id; _backend := Some b; embedder := o |};
       wld := w'; calls := cs |} in
  let primary := [Import_ Fastembed; Construct Fastembed model_id] in
  import_fastembed C w = (Ok tt, w1) ->
  match TextEmbedding C model_id w1 with
  | (Ok m, w2) =>
      startup environ (boot C w) =
      (Ok tt, at_state "fastembed" (Some (FE C m)) w2 primary)
  | (Raise e, w2) =>
      if isinstance_Exception e then
        match import_sentence_transformers C w2 with
        | (Ok _, w3) =>
            match SentenceTransformer C model_id w3 with
            | (Ok m, w4) =>
                startup environ (boot C w) =
                (Ok tt, at_state "sentence-transformers" (Some (ST C m)) w4
                          (primary ++ [Import_ SentenceTransformers;
                                       Construct SentenceTransformers model_id])%list)
            | (Raise e', w4) =>
                startup environ (boot C w) =
                (Raise e', at_state "sentence-transformers" None w4
                          (primary ++ [Import_ SentenceTransformers;
                                       Construct SentenceTransformers model_id])%list)
            end
        | (Raise e', w3) =>
            startup environ (boot C w) =
            (Raise e', at_state "fastembed" None w3
                      (primary ++ [Import_ SentenceTransformers])%list)
        end
      else
        startup environ (boot C w) =
        (Raise e, at_state "fastembed" None w2 primary)
  end.
Proof.
  intros model_id at_state primary Himport.
  subst at_state primary model_id. unfold_monad; simpl.
  rewrite Himport; simpl.
  destruct (TextEmbedding C _ w1) as [[m|e] w2]; simpl; [reflexivity|].
  destruct (isinstance_Exception e); [|reflexivity].
  destruct (import_sentence_transformers C w2) as [[[]|e'] w3]; simpl;
    [|reflexivity].
  destruct (SentenceTransformer C _ w3) as [[m|e'] w4]; reflexivity.
Qed.

(** C10.  The import of fastembed is inside the [try] block: when it
    raises [ImportError] (or its subclass [ModuleNotFoundError]) and
    sentence-transformers can be imported and loads the model, startup
    succeeds with the secondary backend selected, the fastembed constructor
    never having been called. *)
Theorem fallback_on_failed_import environ (w w1 w2 w3 : world C)
    (e : exn) (m : st_model C) :
  let model_id := getenv environ "MODEL_ID" "BAAI/bge-small-en-v1.5" in
  isinstance_ImportError e = true ->
  import_fastembed C w = (Raise e, w1) ->
  import_sentence_transformers C w1 = (Ok tt, w2) ->
  SentenceTransformer C model_id w2 = (Ok m, w3) ->
  startup environ (boot C w) =
  (Ok tt,
   {| glob := {| MODEL_ID := Some model_id;
                 _backend := Some "sentence-transformers";
                 embedder := Some (ST C m) |};
      wld := w3;
      calls := [Import_ Fastembed; Import_ SentenceTransformers;
                Construct SentenceTransformers model_id] |}).
Proof.
  intros model_id He H1 H2 H3. subst model_id.
  assert (Hexc : isinstance_Exception e = true)
    by (destruct e; simpl in He; try discriminate; reflexivity).
  unfold_monad; simpl. rewrite H1; simpl. rewrite Hexc.
  rewrite H2; simpl. rewrite H3; reflexivity.
Qed.

(** C9.  With [MODEL_ID] absent from the environment, the global [MODEL_ID]
    is "BAAI/bge-small-en-v1.5" whatever startup does next; every constructor
    call made during startup, for either library, receives that string; and
    once startup has succeeded [health] reports it. *)
Theorem MODEL_ID_default environ (w : world C) :
  environ "MODEL_ID" = None ->
  let s := snd (startup environ (boot C w)) in
  MODEL_ID (glob s) = Some "BAAI/bge-small-en-v1.5" /\
  (forall lib model_id,
      In (Construct lib model_id) (calls s) ->
      model_id = "BAAI/bge-small-en-v1.5") /\
  (fst (startup environ (boot C w)) = Ok tt ->
   health s = (Ok (VDict [("status", VStr "ok");
                          ("model", VStr "BAAI/bge-small-en-v1.5")]), s)).
Proof.
  intros Hunset s.
  assert (Hid : getenv environ "MODEL_ID" "BAAI/bge-small-en-v1.5"
                = "BAAI/bge-small-en-v1.5")
    by (unfold getenv; rewrite Hunset; reflexivity).
  assert (Hm : MODEL_ID (glob s) = Some "BAAI/bge-small-en-v1.5")
    by (subst s; rewrite startup_MODEL_ID, Hid; reflexivity).
  split; [exact Hm|]. split.
  - intros lib model_id Hin. subst s.
    apply startup_constructs in Hin. rewrite Hin. exact Hid.
  - intros _. apply health_bound. exact Hm.
Qed.

(** ** Requests after startup *)

Lemma handle_calls (r : request) (s : state C) :
  selected (glob s) = true ->
  exists new, calls (snd (handle r s)) = (calls s ++ new)%list /\
              Forall (dispatched_on (_backend (glob s))) new.
Proof.
  intros Hsel. destruct s as [g w cs]; simpl in *.
  destruct (selected_inv _ Hsel) as [(id & m & ->)|(id & m & ->)];
    destruct r as [|req]; simpl; unfold_monad; simpl; split_outcomes;
    first [ exists []; split; [symmetry; apply app_nil_r | constructor]
          | eexists [_]; split; [reflexivity|];
            repeat constructor; simpl; auto ].
Qed.

Lemma serve_calls (rs : list request) :
  forall s : state C,
    selected (glob s) = true ->
    exists new, calls (snd (serve rs s)) = (calls s ++ new)%list /\
                Forall (dispatched_on (_backend (glob s))) new.
Proof.
  induction rs as [|r rs IH]; intros s Hsel; simpl.
  - exists []. split; [symmetry; apply app_nil_r | constructor].
  - destruct (handle_calls r s Hsel) as (new1 & Hc1 & Hd1).
    pose proof (handle_glob r s) as Hg.
    destruct (handle r s) as [out s1]; simpl in *.
    assert (Hsel1 : selected (glob s1) = true) by (rewrite Hg; exact Hsel).
    destruct (IH s1 Hsel1) as (new2 & Hc2 & Hd2).
    destruct (serve rs s1) as [outs s2]; simpl in *.
    exists (new1 ++ new2)%list. split.
    + rewrite Hc2, Hc1. symmetry. apply app_assoc.
    + apply Forall_app. split; [exact Hd1|]. rewrite <- Hg. exact Hd2.
Qed.

(** C3.  After a successful startup and any sequence of requests, [health]
    returns the mapping with status "ok" and the configured model identifier
    (the value of [MODEL_ID] in the environment, or the default), whichever
    backend startup selected; it returns normally and leaves the whole state
    (globals, outside world, recorded calls) as it found it. *)
Theorem health_reports_MODEL_ID environ (w : world C) (s : state C)
    (rs : list request) :
  startup environ (boot C w) = (Ok tt, s) ->
  let s' := snd (serve rs s) in
  health s' =
  (Ok (VDict [("status", VStr "ok");
              ("model", VStr (getenv environ "MODEL_ID" "BAAI/bge-small-en-v1.5"))]),
   s').
Proof.
  intros Hstart s'. apply health_bound.
  subst s'. rewrite serve_glob.
  pose proof (startup_MODEL_ID environ w) as Hm.
  rewrite Hstart in Hm. exact Hm.
Qed.

(** C8.  A successful startup leaves the three globals bound and consistent.
    From then on, whatever requests are served, the globals stay exactly as
    startup left them, each further request leaves them unchanged, and every
    call made into the libraries is a model call on the backend startup
    selected (no import, no construction, no call on the other backend). *)
Theorem selection_state_immutable environ (w : world C) (s : state C) :
  startup environ (boot C w) = (Ok tt, s) ->
  selected (glob s) = true /\
  forall rs : list request,
    let s' := snd (serve rs s) in
    glob s' = glob s /\
    (forall r, glob (snd (handle r s')) = glob s) /\
    exists new, calls s' = (calls s ++ new)%list /\
                Forall (dispatched_on (_backend (glob s))) new.
Proof.
  intros Hstart.
  pose proof (startup_selected _ _ Hstart) as Hsel.
  split; [exact Hsel|]. intros rs s'. subst s'.
  split; [apply serve_glob|]. split.
  - intros r. rewrite handle_glob. apply serve_glob.
  - apply serve_calls. exact Hsel.
Qed.

(** ** The [embed] handler *)

Lemma Forall2_map_r {A B B'} (P : A -> B -> Prop) (Q : A -> B' -> Prop)
    (g : B -> B') (xs : list A) (ys : list B) :
  (forall x y, P x y -> Q x (g y)) ->
  Forall2 P xs ys -> Forall2 Q xs (map g ys).
Proof. intros HPQ. induction 1; simpl; constructor; auto. Qed.

Lemma Forall2_nth_error {A B} (P : A -> B -> Prop) (xs : list A) (ys : list B) :
  Forall2 P xs ys ->
  forall i x, nth_error xs i = Some x ->
              exists y, nth_error ys i = Some y /\ P x y.
Proof.
  induction 1 as [|x0 y0 xs ys Hxy _ IH]; intros [|i] x Hi; simpl in *;
    try discriminate.
  - injection Hi as <-. eauto.
  - eauto.
Qed.

(** What [embed] computes when fastembed is the selected backend. *)
Lemma embed_primary (s : state C) (m : fe_model C) (req : EmbedRequest) :
  _backend (glob s) = Some "fastembed" ->
  embedder (glob s) = Some (FE C m) ->
  embed req s =
  (result_bind (list_ (fst (fe_embed C m (inputs req) (wld s)))) (fun embs =>
   result_bind (map_ (fun e => map_ (float_ C) e) embs) (fun rows =>
   Ok (VDict [("embeddings", rows_value rows)]))),
   {| glob := glob s;
      wld := snd (fe_embed C m (inputs req) (wld s));
      calls := (calls s ++ [CallEmbed (inputs req)])%list |}).
Proof.
  intros Hb Ho. unfold_monad. rewrite Hb; simpl. rewrite Ho; simpl.
  destruct (fe_embed C m (inputs req) (wld s)) as [it w']; simpl.
  destruct (list_ it) as [embs|e]; simpl; [|reflexivity].
  destruct (map_ _ embs); reflexivity.
Qed.

(** What [embed] computes when sentence-transformers is the selected
    backend. *)
Lemma embed_secondary (s : state C) (m : st_model C) (req : EmbedRequest) :
  _backend (glob s) = Some "sentence-transformers" ->
  embedder (glob s) = Some (ST C m) ->
  embed req s =
  (result_bind (fst (st_encode C m (inputs req) true (wld s))) (fun arr =>
   Ok (VDict [("embeddings", rows_value (tolist C arr))])),
   {| glob := glob s;
      wld := snd (st_encode C m (inputs req) true (wld s));
      calls := (calls s ++ [CallEncode (inputs req) true])%list |}).
Proof.
  intros Hb Ho. unfold_monad. rewrite Hb; simpl. rewrite Ho; simpl.
  destruct (st_encode C m (inputs req) true (wld s)) as [[arr|e] w'];
    reflexivity.
Qed.

Lemma contract_rows (R : string -> list float -> Prop)
    (xs : list string) (embs : list (list (scalar C))) :
  Forall2 (fun x e => exists v, map_ (float_ C) e = Ok v /\ R x v) xs embs ->
  exists rows, map_ (fun e => map_ (float_ C) e) embs = Ok rows /\
               Forall2 R xs rows.
Proof.
  induction 1 as [|x e xs embs (v & Hv & HR) _ (rows & Hrows & HF)]; simpl.
  - exists []. split; [reflexivity | constructor].
  - exists (v :: rows). rewrite Hv; simpl. rewrite Hrows; simpl.
    split; [reflexivity | constructor; assumption].
Qed.

Lemma embed_under_contract (R : string -> list float -> Prop)
    (s : state C) (req : EmbedRequest) :
  selected (glob s) = true ->
  one_vector_per_input R (glob s) (inputs req) (wld s) ->
  exists rows,
    fst (embed req s) = Ok (VDict [("embeddings", rows_value rows)]) /\
    Forall2 R (inputs req) rows.
Proof.
  intros Hsel Hcontract. unfold one_vector_per_input in Hcontract.
  destruct (selected_inv _ Hsel) as [(id & m & Hg)|(id & m & Hg)];
    rewrite Hg in Hcontract; simpl in Hcontract.
  - destruct Hcontract as (embs & Hlist & HF).
    destruct (contract_rows R HF) as (rows & Hrows & HR).
    exists rows. split; [|exact HR].
    rewrite (@embed_primary s m req) by (rewrite Hg; reflexivity).
    simpl. rewrite Hlist; simpl. rewrite Hrows; reflexivity.
  - destruct Hcontract as (arr & Hencode & HR).
    exists (tolist C arr). split; [|exact HR].
    rewrite (@embed_secondary s m req) by (rewrite Hg; reflexivity).
    simpl. rewrite Hencode; reflexivity.
Qed.

(** C2.  On either backend path, when the model call obeys the libraries'
    contract (it succeeds with one vector per input, in input order), [embed]
    returns the mapping whose "embeddings" list has exactly as many vectors
    as there are inputs, the i-th vector being the list of floats of the
    i-th input. *)
Theorem embed_one_vector_per_input (R : string -> list float -> Prop)
    (s : state C) (req : EmbedRequest) :
  selected (glob s) = true ->
  one_vector_per_input R (glob s) (inputs req) (wld s) ->
  exists vs,
    fst (embed req s) = Ok (VDict [("embeddings", VList vs)]) /\
    length vs = length (inputs req) /\
    Forall2 (fun x v => exists row, R x row /\ v = VList (map VFloat row))
            (inputs req) vs /\
    forall i x, nth_error (inputs req) i = Some x ->
                exists row, nth_error vs i = Some (VList (map VFloat row)) /\
                            R x row.
Proof.
  intros Hsel Hcontract.
  destruct (embed_under_contract R s req Hsel Hcontract) as (rows & Hres & HR).
  assert (HF : Forall2 (fun x v => exists row, R x row /\ v = VList (map VFloat row))
                       (inputs req) (map (fun r => VList (map VFloat r)) rows)).
  { apply Forall2_map_r with (P := R); [|exact HR]. intros x y Hxy. eauto. }
  exists (map (fun r => VList (map VFloat r)) rows).
  split; [exact Hres|]. split; [|split; [exact HF|]].
  - symmetry. exact (Forall2_length HF).
  - intros i x Hi.
    destruct (Forall2_nth_error HF i Hi) as (v & Hv & row & Hrow & ->).
    exists row. split; assumption.
Qed.

(** C4.  On either backend path, when the model call on the empty sequence
    succeeds with one vector per input (hence none), [embed] returns exactly
    the mapping from "embeddings" to the empty list. *)
Theorem embed_empty_inputs (s : state C) (req : EmbedRequest) :
  selected (glob s) = true ->
  inputs req = [] ->
  one_vector_per_input (fun _ _ => True) (glob s) [] (wld s) ->
  fst (embed req s) = Ok (VDict [("embeddings", VList [])]).
Proof.
  intros Hsel Hempty Hcontract. rewrite <- Hempty in Hcontract.
  destruct (embed_under_contract _ s req Hsel Hcontract) as (rows & Hres & HR).
  rewrite Hempty in HR. inversion HR; subst. exact Hres.
Qed.

(** C5.  With fastembed selected, [embed] consumes the iterator to its end
    and converts every element of every vector with [float]: it returns a
    response exactly when the iteration ends without exception and every
    conversion succeeds, and the response then holds, for each vector the
    iterator produced and in the same order, the list of builtin floats
    obtained from its elements. *)
Theorem embed_primary_materializes_and_coerces (s : state C)
    (m : fe_model C) (req : EmbedRequest) :
  _backend (glob s) = Some "fastembed" ->
  embedder (glob s) = Some (FE C m) ->
  let it := fst (fe_embed C m (inputs req) (wld s)) in
  (forall embs rows,
      list_ it = Ok embs ->
      map_ (fun e => map_ (float_ C) e) embs = Ok rows ->
      fst (embed req s) = Ok (VDict [("embeddings", rows_value rows)])) /\
  (forall resp,
      fst (embed req s) = Ok resp ->
      exists embs vs,
        list_ it = Ok embs /\
        resp = VDict [("embeddings", VList vs)] /\
        Forall2 (fun e v => exists l, v = VList l /\ Forall2 (coerced C) e l)
                embs vs).
Proof.
  intros Hb Ho it. rewrite (@embed_primary s m req Hb Ho); simpl. fold it.
  split.
  - intros embs rows Hlist Hrows. rewrite Hlist; simpl. rewrite Hrows.
    reflexivity.
  - intros resp Hres.
    destruct (list_ it) as [embs|e]; simpl in Hres; [|discriminate].
    destruct (map_ _ embs) as [rows|e] eqn:Hrows; simpl in Hres; [|discriminate].
    injection Hres as <-.
    exists embs, (map (fun r => VList (map VFloat r)) rows).
    split; [reflexivity|]. split; [reflexivity|].
    apply map__Forall2 in Hrows.
    apply Forall2_map_r with (P := fun e row => map_ (float_ C) e = Ok row);
      [|exact Hrows].
    intros e row He. exists (map VFloat row). split; [reflexivity|].
    apply map__Forall2 in He.
    apply Forall2_map_r with (P := fun x y => float_ C x = Ok y); [|exact He].
    intros x y Hx. exists y. split; [exact Hx | reflexivity].
Qed.

(** C6.  With sentence-transformers selected, [embed] makes one call,
    [encode] on the whole input sequence with [normalize_embeddings=True];
    an exception of that call is the outcome, and otherwise the response is
    the [tolist] conversion of the returned array, as nested lists of
    builtin floats.  Anything the library guarantees for the rows of an
    array encoded with the flag set (unit length) therefore holds for every
    returned vector. *)
Theorem embed_secondary_encodes_normalized (s : state C)
    (m : st_model C) (req : EmbedRequest) :
  _backend (glob s) = Some "sentence-transformers" ->
  embedder (glob s) = Some (ST C m) ->
  let encoded := st_encode C m (inputs req) true (wld s) in
  embed req s =
  (match fst encoded with
   | Ok arr => Ok (VDict [("embeddings", rows_value (tolist C arr))])
   | Raise e => Raise e
   end,
   {| glob := glob s;
      wld := snd encoded;
      calls := (calls s ++ [CallEncode (inputs req) true])%list |}) /\
  forall unit_length : list float -> Prop,
    (forall arr, fst encoded = Ok arr -> Forall unit_length (tolist C arr)) ->
    forall resp,
      fst (embed req s) = Ok resp ->
      exists rows, resp = VDict [("embeddings", rows_value rows)] /\
                   Forall unit_length rows.
Proof.
  intros Hb Ho encoded. rewrite (@embed_secondary s m req Hb Ho). fold encoded.
  split.
  - destruct (fst encoded); reflexivity.
  - intros unit_length Hlib resp Hres. simpl in Hres.
    destruct (fst encoded) as [arr|e]; simpl in Hres; [|discriminate].
    injection Hres as <-. exists (tolist C arr). split; [reflexivity|].
    apply Hlib. reflexivity.
Qed.

(** C7.  When the model call of the selected backend raises [e] (for
    fastembed at any point of the iteration, also after some vectors were
    produced), [embed] raises that same [e] and returns nothing; the globals
    are untouched and exactly one call was made into the libraries, the
    model call of the selected backend on the request's inputs. *)
Theorem embed_error_propagates (s : state C) (req : EmbedRequest) (e : exn) :
  selected (glob s) = true ->
  model_call_raises (glob s) (inputs req) (wld s) e ->
  exists c w',
    embed req s =
    (Raise e, {| glob := glob s; wld := w';
                 calls := (calls s ++ [c])%list |}) /\
    dispatched_on (_backend (glob s)) c /\
    (c = CallEmbed (inputs req) \/ c = CallEncode (inputs req) true).
Proof.
  intros Hsel Hraises. unfold model_call_raises in Hraises.
  destruct (selected_inv _ Hsel) as [(id & m & Hg)|(id & m & Hg)];
    rewrite Hg in Hraises; simpl in Hraises.
  - exists (CallEmbed (inputs req)), (snd (fe_embed C m (inputs req) (wld s))).
    rewrite (@embed_primary s m req) by (rewrite Hg; reflexivity).
    rewrite Hraises, Hg; simpl. auto.
  - exists (CallEncode (inputs req) true),
           (snd (st_encode C m (inputs req) true (wld s))).
    rewrite (@embed_secondary s m req) by (rewrite Hg; reflexivity).
    rewrite Hraises, Hg; simpl. auto.
Qed.

(** ** Further properties of startup *)

(** X1.  The fallback library is loaded only when needed: after a successful
    startup with fastembed selected the only library calls made are the
    import of fastembed and one construction, and with the fallback selected
    sentence-transformers was imported and constructed exactly once, after
    the attempt on fastembed. *)
Theorem startup_loads_lazily environ (w : world C) (s : state C) :
  let model_id := getenv environ "MODEL_ID" "BAAI/bge-small-en-v1.5" in
  startup environ (boot C w) = (Ok tt, s) ->
  (_backend (glob s) = Some "fastembed" /\
   calls s = [Import_ Fastembed; Construct Fastembed model_id]) \/
  (_backend (glob s) = Some "sentence-transformers" /\
   (calls s = [Import_ Fastembed; Construct Fastembed model_id;
               Import_ SentenceTransformers;
               Construct SentenceTransformers model_id] \/
    calls s = [Import_ Fastembed; Import_ SentenceTransformers;
               Construct SentenceTransformers model_id])).
Proof.
  intros model_id. subst model_id. unfold_monad; simpl.
  split_outcomes; intros H; inversion H; subst; simpl; auto.
Qed.


(** X3.  When [MODEL_ID] is set in the environment its value is taken as it
    is, the empty string included: it is the global [MODEL_ID], the argument
    of every constructor call of startup, and what [health] reports; the
    default is not used. *)
Theorem MODEL_ID_from_environment environ (w : world C) (v : string) :
  environ "MODEL_ID" = Some v ->
  let s := snd (startup environ (boot C w)) in
  MODEL_ID (glob s) = Some v /\
  (forall lib model_id, In (Construct lib model_id) (calls s) -> model_id = v) /\
  health s = (Ok (VDict [("status", VStr "ok"); ("model", VStr v)]), s).
Proof.
  intros Hset s.
  assert (Hid : getenv environ "MODEL_ID" "BAAI/bge-small-en-v1.5" = v)
    by (unfold getenv; rewrite Hset; reflexivity).
  assert (Hm : MODEL_ID (glob s) = Some v)
    by (subst s; rewrite startup_MODEL_ID, Hid; reflexivity).
  split; [exact Hm|]. split.
  - intros lib model_id Hin. subst s.
    apply startup_constructs in Hin. rewrite Hin. exact Hid.
  - apply health_bound. exact Hm.
Qed.

(** ** Further properties of the handlers *)



(** X5.  With a backend selected, [embed] raises nothing of its own: it
    raises [e] exactly when the model call raises [e] or, on the fastembed
    path, when the iteration ended normally and a [float] conversion raised
    [e].  An exception of the iteration therefore takes precedence over a
    conversion error in a vector produced before it. *)
Theorem embed_raises_iff (s : state C) (req : EmbedRequest) (e : exn) :
  selected (glob s) = true ->
  (fst (embed req s) = Raise e <->
   model_call_raises (glob s) (inputs req) (wld s) e \/
   coercion_raises (glob s) (inputs req) (wld s) e).
Proof.
  intros Hsel. unfold model_call_raises, coercion_raises.
  destruct (selected_inv _ Hsel) as [(id & m & Hg)|(id & m & Hg)].
  - rewrite (@embed_primary s m req) by (rewrite Hg; reflexivity).
    rewrite Hg; simpl.
    destruct (list_ (fst (fe_embed C m (inputs req) (wld s))))
      as [embs|e0]; simpl.
    + destruct (map_ _ embs) as [rows|e1] eqn:Hrows; simpl; split.
      * discriminate.
      * intros [H|(embs' & Hl & Hm)]; [discriminate|].
        injection Hl as <-. rewrite Hrows in Hm. discriminate.
      * intros H. injection H as ->. right. exists embs.
        split; [reflexivity | exact Hrows].
      * intros [H|(embs' & Hl & Hm)]; [discriminate|].
        injection Hl as <-. rewrite Hrows in Hm. injection Hm as ->.
        reflexivity.
    + split.
      * intros H. injection H as ->. left. reflexivity.
      * intros [H|(embs' & Hl & _)]; [|discriminate].
        injection H as ->. reflexivity.
  - rewrite (@embed_secondary s m req) by (rewrite Hg; reflexivity).
    rewrite Hg; simpl.
    destruct (fst (st_encode C m (inputs req) true (wld s))) as [arr|e0];
      simpl; split.
    + discriminate.
    + intros [H|[]]. discriminate.
    + intros H. injection H as ->. left. reflexivity.
    + intros [H|[]]. injection H as ->. reflexivity.
Qed.

Lemma handle_model_call (r : request) (s : state C) :
  selected (glob s) = true ->
  calls (snd (handle r s)) =
  (calls s ++ model_calls (_backend (glob s)) [r])%list.
Proof.
  intros Hsel. destruct s as [g w cs]; simpl in *.
  destruct (selected_inv _ Hsel) as [(id & m & ->)|(id & m & ->)];
    destruct r as [|req]; simpl; unfold_monad; simpl; split_outcomes;
    rewrite ?app_nil_r; reflexivity.
Qed.

(** X6.  With a backend selected, serving a sequence of requests makes
    exactly one library call per [embed] request, in the order of the
    requests: the model call of the selected backend on the whole input
    sequence of that request, whether the request succeeds or fails; [health]
    makes none.  Every request gets one outcome. *)
Theorem serve_one_call_per_embed (rs : list request) :
  forall s : state C,
    selected (glob s) = true ->
    calls (snd (serve rs s)) =
    (calls s ++ model_calls (_backend (glob s)) rs)%list /\
    length (fst (serve rs s)) = length rs.
Proof.
  induction rs as [|r rs IH]; intros s Hsel.
  - simpl. rewrite app_nil_r. split; reflexivity.
  - pose proof (handle_model_call r s Hsel) as Hc.
    pose proof (handle_glob r s) as Hg.
    simpl serve. destruct (handle r s) as [out s1]; simpl in Hc, Hg.
    assert (Hsel1 : selected (glob s1) = true) by (rewrite Hg; exact Hsel).
    destruct (IH s1 Hsel1) as [Hcs Hlen].
    destruct (serve rs s1) as [outs s2]; simpl in *.
    split; [|rewrite Hlen; reflexivity].
    rewrite Hcs, Hc, Hg, app_nil_r, <- app_assoc. reflexivity.
Qed.

End Properties.

(** * Concrete runs on the demo libraries *)

(** The fallback scenario of C1 on the demo libraries: fastembed raises
    [ValueError] for the model, sentence-transformers loads it. *)
Lemma startup_fallback_on_Exception_witness :
  import_fastembed Demo.libs Demo.unknown_to_fastembed
    = (Ok tt, Demo.unknown_to_fastembed) /\
  startup Demo.unset (boot Demo.libs Demo.unknown_to_fastembed) =
  (Ok tt,
   {| glob := {| MODEL_ID := Some "BAAI/bge-small-en-v1.5";
                 _backend := Some "sentence-transformers";
                 embedder := Some (ST Demo.libs "BAAI/bge-small-en-v1.5") |};
      wld := Demo.unknown_to_fastembed;
      calls := [Import_ Fastembed;
                Construct Fastembed "BAAI/bge-small-en-v1.5";
                Import_ SentenceTransformers;
                Construct SentenceTransformers "BAAI/bge-small-en-v1.5"] |}).
Proof.
  split; [reflexivity|].
  exact (@startup_fallback_on_Exception Demo.libs Demo.unset
           Demo.unknown_to_fastembed Demo.unknown_to_fastembed eq_refl).
Defined.


(** Neither library loads the model: startup raises the exception of the
    second constructor, each constructor having been called once. *)
Example startup_hopeless :
  fst (startup Demo.unset (boot Demo.libs Demo.hopeless)) = Raise OSError /\
  calls (snd (startup Demo.unset (boot Demo.libs Demo.hopeless))) =
  [Import_ Fastembed; Construct Fastembed "BAAI/bge-small-en-v1.5";
   Import_ SentenceTransformers;
   Construct SentenceTransformers "BAAI/bge-small-en-v1.5"].
Proof. split; reflexivity. Qed.

(** A failed request does not stop the service: the next one is answered. *)
Example serve_after_failure :
  fst (serve [POST_embed {| inputs := ["a"; "opaque"] |};
              POST_embed {| inputs := ["b"] |}]
         Demo.primary_ready) =
  [Raise TypeError;
   Ok (VDict [("embeddings", VList [VList [VFloat 0%float; VFloat 1%float]])])].
Proof. reflexivity. Qed.

(** C1 as stated fails: the load of the primary model is interrupted
    ([KeyboardInterrupt] is raised by the fastembed constructor), and startup
    ends with that exception without importing or constructing the secondary
    backend. *)
Lemma startup_no_fallback_on_KeyboardInterrupt :
  import_fastembed Demo.libs Demo.interrupted = (Ok tt, Demo.interrupted) /\
  TextEmbedding Demo.libs "BAAI/bge-small-en-v1.5" Demo.interrupted
    = (Raise KeyboardInterrupt, Demo.interrupted) /\
  fst (startup Demo.unset (boot Demo.libs Demo.interrupted))
    = Raise KeyboardInterrupt /\
  calls (snd (startup Demo.unset (boot Demo.libs Demo.interrupted)))
    = [Import_ Fastembed; Construct Fastembed "BAAI/bge-small-en-v1.5"] /\
  ~ In (Construct SentenceTransformers "BAAI/bge-small-en-v1.5")
       (calls (snd (startup Demo.unset (boot Demo.libs Demo.interrupted)))).
Proof.
  repeat split; try reflexivity.
  vm_compute. intros [H|[H|[]]]; discriminate H.
Qed.

(** fastembed is not installed: the service is ready on the fallback. *)
Lemma fallback_on_failed_import_witness :
  import_fastembed Demo.libs Demo.no_fastembed
    = (Raise ImportError, Demo.no_fastembed) /\
  startup Demo.unset (boot Demo.libs Demo.no_fastembed) =
  (Ok tt,
   {| glob := {| MODEL_ID := Some "BAAI/bge-small-en-v1.5";
                 _backend := Some "sentence-transformers";
                 embedder := Some (ST Demo.libs "BAAI/bge-small-en-v1.5") |};
      wld := Demo.no_fastembed;
      calls := [Import_ Fastembed; Import_ SentenceTransformers;
                Construct SentenceTransformers "BAAI/bge-small-en-v1.5"] |}).
Proof.
  split; [reflexivity|].
  exact (@fallback_on_failed_import Demo.libs Demo.unset
           Demo.no_fastembed Demo.no_fastembed Demo.no_fastembed
           Demo.no_fastembed ImportError "BAAI/bge-small-en-v1.5"
           eq_refl eq_refl eq_refl eq_refl).
Defined.

Lemma MODEL_ID_default_witness :
  Demo.unset "MODEL_ID" = None /\
  MODEL_ID (glob Demo.primary_ready) = Some "BAAI/bge-small-en-v1.5" /\
  health Demo.primary_ready =
  (Ok (VDict [("status", VStr "ok"); ("model", VStr "BAAI/bge-small-en-v1.5")]),
   Demo.primary_ready).
Proof.
  split; [reflexivity|].
  destruct (@MODEL_ID_default Demo.libs Demo.unset Demo.healthy eq_refl)
    as (Hid & _ & Hhealth).
  split; [exact Hid | apply Hhealth; reflexivity].
Defined.

(** A model identifier set in the environment, the fallback selected, two
    requests served: [health] still reports the configured identifier. *)
Lemma health_reports_MODEL_ID_witness :
  health (snd (serve [POST_embed {| inputs := ["a"] |}; GET_health]
                 (snd (startup (Demo.with_model "intfloat/e5-small")
                               (boot Demo.libs Demo.no_fastembed))))) =
  (Ok (VDict [("status", VStr "ok"); ("model", VStr "intfloat/e5-small")]),
   snd (serve [POST_embed {| inputs := ["a"] |}; GET_health]
          (snd (startup (Demo.with_model "intfloat/e5-small")
                        (boot Demo.libs Demo.no_fastembed))))).
Proof.
  apply (@health_reports_MODEL_ID Demo.libs (Demo.with_model "intfloat/e5-small")
           Demo.no_fastembed).
  reflexivity.
Defined.

Lemma selection_state_immutable_witness :
  glob (snd (serve [POST_embed {| inputs := ["a"; ""] |}; GET_health;
                    POST_embed {| inputs := ["b"] |}]
               Demo.fallback_ready)) = glob Demo.fallback_ready.
Proof.
  destruct (@selection_state_immutable Demo.libs Demo.unset Demo.no_fastembed
              Demo.fallback_ready eq_refl) as [_ Hserve].
  destruct (Hserve [POST_embed {| inputs := ["a"; ""] |}; GET_health;
                    POST_embed {| inputs := ["b"] |}]) as [Hglob _].
  exact Hglob.
Defined.

(** Three texts on each path: three vectors, in the order of the texts. *)
Lemma embed_one_vector_per_input_witness :
  (exists vs,
      fst (embed {| inputs := ["a"; "b"; "c"] |} Demo.primary_ready)
        = Ok (VDict [("embeddings", VList vs)]) /\ length vs = 3) /\
  (exists vs,
      fst (embed {| inputs := ["a"; "b"; "c"] |} Demo.fallback_ready)
        = Ok (VDict [("embeddings", VList vs)]) /\ length vs = 3).
Proof.
  split.
  - destruct (@embed_one_vector_per_input Demo.libs (fun x v => v = Demo.vec x)
                Demo.primary_ready {| inputs := ["a"; "b"; "c"] |})
      as (vs & Hres & Hlen & _).
    + reflexivity.
    + exists [map Demo.F32 (Demo.vec "a"); map Demo.F32 (Demo.vec "b");
              map Demo.F32 (Demo.vec "c")].
      split; [reflexivity|].
      repeat constructor; eexists; split; reflexivity.
    + exists vs. split; [exact Hres | exact Hlen].
  - destruct (@embed_one_vector_per_input Demo.libs (fun x v => v = Demo.vec x)
                Demo.fallback_ready {| inputs := ["a"; "b"; "c"] |})
      as (vs & Hres & Hlen & _).
    + reflexivity.
    + exists [Demo.vec "a"; Demo.vec "b"; Demo.vec "c"].
      split; [reflexivity|]. repeat constructor.
    + exists vs. split; [exact Hres | exact Hlen].
Defined.

Lemma embed_empty_inputs_witness :
  fst (embed {| inputs := [] |} Demo.primary_ready)
    = Ok (VDict [("embeddings", VList [])]) /\
  fst (embed {| inputs := [] |} Demo.fallback_ready)
    = Ok (VDict [("embeddings", VList [])]).
Proof.
  split.
  - apply (@embed_empty_inputs Demo.libs Demo.primary_ready {| inputs := [] |}).
    + reflexivity.
    + reflexivity.
    + exists []. split; [reflexivity | constructor].
  - apply (@embed_empty_inputs Demo.libs Demo.fallback_ready {| inputs := [] |}).
    + reflexivity.
    + reflexivity.
    + exists []. split; [reflexivity | constructor].
Defined.

Lemma embed_primary_materializes_and_coerces_witness :
  fst (embed {| inputs := ["a"; "b"] |} Demo.primary_ready) =
  Ok (VDict [("embeddings",
              VList [VList [VFloat 1%float; VFloat 0%float];
                     VList [VFloat 0%float; VFloat 1%float]])]).
Proof.
  destruct (@embed_primary_materializes_and_coerces Demo.libs
              Demo.primary_ready "BAAI/bge-small-en-v1.5"
              {| inputs := ["a"; "b"] |} eq_refl eq_refl) as [Hreturns _].
  apply (Hreturns [[Demo.F32 1%float; Demo.F32 0%float];
                   [Demo.F32 0%float; Demo.F32 1%float]]
                  [[1%float; 0%float]; [0%float; 1%float]]);
    reflexivity.
Defined.

Lemma embed_secondary_encodes_normalized_witness :
  calls (snd (embed {| inputs := ["a"; "c"] |} Demo.fallback_ready)) =
  (calls Demo.fallback_ready ++ [CallEncode ["a"; "c"] true])%list /\
  exists rows,
    fst (embed {| inputs := ["a"; "c"] |} Demo.fallback_ready)
      = Ok (VDict [("embeddings", rows_value rows)]) /\
    Forall Demo.unit_length rows.
Proof.
  destruct (@embed_secondary_encodes_normalized Demo.libs
              Demo.fallback_ready "BAAI/bge-small-en-v1.5"
              {| inputs := ["a"; "c"] |} eq_refl eq_refl) as [Hrun Hunit].
  split.
  - rewrite Hrun. reflexivity.
  - destruct (Hunit Demo.unit_length) with
      (resp := VDict [("embeddings",
                       rows_value [Demo.vec "a"; Demo.vec "c"])])
      as (rows & Hresp & Hrows).
    + intros arr Harr. injection Harr as <-. repeat constructor.
    + reflexivity.
    + exists rows. split; [rewrite <- Hresp; reflexivity | exact Hrows].
Defined.

(** The second of three texts is rejected after the first vector was
    produced: the request raises, no vector is returned. *)
Lemma embed_error_propagates_witness :
  model_call_raises (glob Demo.primary_ready) ["a"; ""; "c"]
    (wld Demo.primary_ready) ValueError /\
  fst (embed {| inputs := ["a"; ""; "c"] |} Demo.primary_ready)
    = Raise ValueError.
Proof.
  split; [reflexivity|].
  destruct (@embed_error_propagates Demo.libs Demo.primary_ready
              {| inputs := ["a"; ""; "c"] |} ValueError eq_refl eq_refl)
    as (c & w' & Hrun & _).
  rewrite Hrun. reflexivity.
Defined.

(** fastembed missing: the only construction is that of the fallback. *)
Lemma startup_loads_lazily_witness :
  (_backend (glob Demo.fallback_ready) = Some "fastembed" /\
   calls Demo.fallback_ready =
   [Import_ Fastembed; Construct Fastembed "BAAI/bge-small-en-v1.5"]) \/
  (_backend (glob Demo.fallback_ready) = Some "sentence-transformers" /\
   (calls Demo.fallback_ready =
    [Import_ Fastembed; Construct Fastembed "BAAI/bge-small-en-v1.5";
     Import_ SentenceTransformers;
     Construct SentenceTransformers "BAAI/bge-small-en-v1.5"] \/
    calls Demo.fallback_ready =
    [Import_ Fastembed; Import_ SentenceTransformers;
     Construct SentenceTransformers "BAAI/bge-small-en-v1.5"])).
Proof.
  exact (@startup_loads_lazily Demo.libs Demo.unset Demo.no_fastembed
           Demo.fallback_ready eq_refl).
Defined.


(** [MODEL_ID] set to the empty string. *)
Lemma MODEL_ID_from_environment_witness :
  Demo.with_model "" "MODEL_ID" = Some "" /\
  health (snd (startup (Demo.with_model "") (boot Demo.libs Demo.healthy))) =
  (Ok (VDict [("status", VStr "ok"); ("model", VStr "")]),
   snd (startup (Demo.with_model "") (boot Demo.libs Demo.healthy))).
Proof.
  split; [reflexivity|].
  destruct (@MODEL_ID_from_environment Demo.libs (Demo.with_model "")
              Demo.healthy "" eq_refl) as (_ & _ & Hhealth).
  exact Hhealth.
Defined.


(** The first text gets a vector [float] rejects and the second one
    interrupts the iteration: the request raises the exception of the
    iteration.  Without the second text it raises that of [float]. *)
Lemma embed_raises_iff_witness :
  fst (embed {| inputs := ["opaque"; ""] |} Demo.primary_ready)
    = Raise ValueError /\
  fst (embed {| inputs := ["a"; "opaque"] |} Demo.primary_ready)
    = Raise TypeError.
Proof.
  split.
  - apply (proj2 (@embed_raises_iff Demo.libs Demo.primary_ready
                    {| inputs := ["opaque"; ""] |} ValueError eq_refl)).
    left. reflexivity.
  - apply (proj2 (@embed_raises_iff Demo.libs Demo.primary_ready
                    {| inputs := ["a"; "opaque"] |} TypeError eq_refl)).
    right. exists [map Demo.F32 (Demo.vec "a"); [Demo.Opaque]].
    split; reflexivity.
Defined.

(** Three requests, the first of which fails: two model calls, none for
    [health]. *)
Lemma serve_one_call_per_embed_witness :
  calls (snd (serve [POST_embed {| inputs := ["a"; ""] |}; GET_health;
                     POST_embed {| inputs := ["b"] |}]
                Demo.fallback_ready)) =
  (calls Demo.fallback_ready ++
   [CallEncode ["a"; ""] true; CallEncode ["b"] true])%list.
Proof.
  destruct (@serve_one_call_per_embed Demo.libs
              [POST_embed {| inputs := ["a"; ""] |}; GET_health;
               POST_embed {| inputs := ["b"] |}]
              Demo.fallback_ready eq_refl) as [Hcalls _].
  exact Hcalls.
Defined.
